(** * Cookie-based session authentication of the LinkedIn client

    A shallow embedding of [linkedin_api/client.py]: the cookie cache
    ([_load_cookies_from_cache], [_set_session_cookies]), the token validator
    ([_is_token_still_valid]) and the login round trip ([authenticate],
    [_do_authentication_request]).

    The client mutates its [requests] session, writes pickled jars to disk and
    talks to the network.  These effects are threaded through a state-and-
    exception monad: a raised exception keeps the state reached so far, as a
    Python exception keeps the side effects performed before it. *)

From Stdlib Require Import ZArith QArith String Ascii List.
From stdpp Require Import gmap strings list fin_maps.
Import ListNotations.
Local Open Scope string_scope.

(** ** Cookies and jars *)

(** A cookie of [http.cookiejar]: [value] and [expires] may both be [None]. *)
Record Cookie := mkCookie {
  name : string;
  value : option string;
  expires : option Z;
  domain : string;
  path : string
}.

(** A jar, as the sequence of cookies its iterator yields. *)
Abbreviation CookieJar := (list Cookie).

(** Python truthiness of the values the client tests. *)
Definition truthy_str (s : option string) : bool :=
  match s with
  | Some s => negb (s =? "")
  | None => false
  end.

Definition truthy_int (n : option Z) : bool :=
  match n with
  | Some n => negb (n =? 0)%Z
  | None => false
  end.

Definition truthy_jar (jar : CookieJar) : bool :=
  match jar with
  | [] => false
  | _ :: _ => true
  end.

(** [expires > _now] for an integer expiry and the float clock, compared
    exactly as Python compares an int with a finite float. *)
Definition expires_gt (e : option Z) (_now : Q) : bool :=
  match e with
  | Some e => negb (Qle_bool (inject_Z e) _now)
  | None => false
  end.

(** The guard of the loop in [_is_token_still_valid]:
    [cookie.name == "JSESSIONID" and cookie.value]. *)
Definition is_session_token (cookie : Cookie) : bool :=
  (name cookie =? "JSESSIONID") && truthy_str (value cookie).

(** The inner test: [cookie.expires and cookie.expires > _now]. *)
Definition unexpired (_now : Q) (cookie : Cookie) : bool :=
  truthy_int (expires cookie) && expires_gt (expires cookie) _now.

(** [_is_token_still_valid], with the reading of [time.time()] as [_now].
    The [for] loop returns [True] or breaks at the first cookie passing the
    guard, and falls through to [return False]. *)
Fixpoint _is_token_still_valid (_now : Q) (cookies : CookieJar) : bool :=
  match cookies with
  | [] => false
  | cookie :: rest =>
      if is_session_token cookie
      then (if unexpired _now cookie then true else false)
      else _is_token_still_valid _now rest
  end.

(** ** Exceptions, lookup in a jar and quote stripping *)

(** A decoded JSON document, as [res.json()] returns it. *)
#[warnings="-register-all"]
Inductive json :=
| JNull
| JBool (b : bool)
| JNum (q : Q)
| JStr (s : string)
| JArr (items : list json)
| JObj (fields : list (string * json)).

Inductive exn :=
| ChallengeException (arg : json)
| UnauthorizedException
| Exception
| KeyError
| TypeError
| CookieConflictError
| JSONDecodeError
| ConnectionError.

Inductive result (A : Type) :=
| Ok (a : A)
| Raise (e : exn).
Arguments Ok {A} a.
Arguments Raise {A} e.

(** The scan behind [jar[name]] in [requests.cookies.RequestsCookieJar]
    ([_find_no_duplicates] without domain or path): a second cookie of that
    name after one with a value is a conflict. *)
Fixpoint _find_no_duplicates (n : string) (jar : CookieJar)
    (toReturn : option string) : result (option string) :=
  match jar with
  | [] => Ok toReturn
  | cookie :: rest =>
      if name cookie =? n
      then match toReturn with
           | Some _ => Raise CookieConflictError
           | None => _find_no_duplicates n rest (value cookie)
           end
      else _find_no_duplicates n rest toReturn
  end.

(** [jar[name]]: the value found when it is truthy, [KeyError] otherwise. *)
Definition jar_getitem (jar : CookieJar) (n : string) : result string :=
  match _find_no_duplicates n jar None with
  | Raise e => Raise e
  | Ok (Some v) => if negb (v =? "") then Ok v else Raise KeyError
  | Ok None => Raise KeyError
  end.

Definition dquote : ascii := ascii_of_nat 34.

(** [str.lstrip], [str.rstrip] and [str.strip] for a one-character set. *)
Fixpoint lstrip (ch : ascii) (s : string) : string :=
  match s with
  | EmptyString => EmptyString
  | String a rest => if Ascii.eqb a ch then lstrip ch rest else s
  end.

Fixpoint rstrip (ch : ascii) (s : string) : string :=
  match s with
  | EmptyString => EmptyString
  | String a rest =>
      match rstrip ch rest with
      | EmptyString => if Ascii.eqb a ch then EmptyString else String a EmptyString
      | r => String a r
      end
  end.

Definition strip (ch : ascii) (s : string) : string := rstrip ch (lstrip ch s).

(** [k] copies of [ch], the shape of what [strip] removes at either end. *)
Fixpoint copies (ch : ascii) (k : nat) : string :=
  match k with
  | O => EmptyString
  | S k => String ch (copies ch k)
  end.

(** ** JSON bodies *)

Definition truthy_json (data : json) : bool :=
  match data with
  | JNull => false
  | JBool b => b
  | JNum q => negb (Qeq_bool q 0)
  | JStr s => negb (s =? "")
  | JArr items => match items with [] => false | _ => true end
  | JObj fields => match fields with [] => false | _ => true end
  end.

(** Lookup in a decoded object (a Python [dict], whose keys are unique). *)
Fixpoint dict_get (fields : list (string * json)) (key : string) : option json :=
  match fields with
  | [] => None
  | (k, v) :: rest => if k =? key then Some v else dict_get rest key
  end.

(** [data[key]]: only a [dict] can be indexed by a string. *)
Definition json_getitem (data : json) (key : string) : result json :=
  match data with
  | JObj fields =>
      match dict_get fields key with
      | Some v => Ok v
      | None => Raise KeyError
      end
  | _ => Raise TypeError
  end.

(** [v != "PASS"]. *)
Definition ne_PASS (v : json) : bool :=
  match v with
  | JStr s => negb (s =? "PASS")
  | _ => true
  end.

(** The body passes the challenge check: the condition
    [data and data["login_result"] != "PASS"] evaluates to a falsy value. *)
Definition passes_challenge (data : json) : Prop :=
  truthy_json data = false \/ json_getitem data "login_result" = Ok (JStr "PASS").

(** ** The environment: clock, network and disk *)

(** The form sent to the login endpoint. *)
Record Payload := mkPayload {
  session_key : string;
  session_password : string;
  payload_JSESSIONID : string
}.

(** What the client reads of a [requests.Response]; [body] is [None] when the
    body is not JSON, in which case [res.json()] raises. *)
Record Response := mkResponse {
  status_code : Z;
  body : option json;
  cookies : CookieJar
}.

(** The outside world of one run: the clock and the service's answers. *)
Record World := mkWorld {
  time_time : Q;
  requests_get : result Response;
  requests_post : Payload -> CookieJar -> result Response
}.

(** Observable effects, most recent last. *)
Inductive event :=
| EvGet (url : string)
| EvPost (url : string) (data : Payload) (jar : CookieJar)
| EvDump (file : string) (jar : CookieJar).

Definition is_network (e : event) : bool :=
  match e with
  | EvGet _ | EvPost _ _ _ => true
  | EvDump _ _ => false
  end.

(** The client with the disk it writes to: [self._use_cookie_cache],
    [self.session.cookies], [self.session.headers], the pickled jars by file
    name, and the log of effects.  [files] is keyed by the path string the
    client passes to [open]: two strings that the file system resolves to one
    file are two keys here, so nothing below is stated about a path other
    than the one the client itself computes. *)
Record State := mkState {
  _use_cookie_cache : bool;
  session_cookies : CookieJar;
  session_headers : gmap string string;
  files : gmap string CookieJar;
  log : list event
}.

Definition set_session_cookies (jar : CookieJar) (st : State) : State :=
  mkState (_use_cookie_cache st) jar (session_headers st) (files st) (log st).

Definition set_header (k v : string) (st : State) : State :=
  mkState (_use_cookie_cache st) (session_cookies st)
          (<[k := v]> (session_headers st)) (files st) (log st).

(** [open(file, "wb")] followed by [pickle.dump], on a store that works: the
    write is logged and the file then holds the jar.  A failing disk is not
    part of the model; what is proved about a write is proved of runs in
    which it went through. *)
Definition pickle_dump (file : string) (jar : CookieJar) (st : State) : State :=
  mkState (_use_cookie_cache st) (session_cookies st) (session_headers st)
          (<[file := jar]> (files st)) (log st ++ [EvDump file jar]).

Definition emit (e : event) (st : State) : State :=
  mkState (_use_cookie_cache st) (session_cookies st) (session_headers st)
          (files st) (log st ++ [e]).

(** ** The monad of client methods *)

Definition M (A : Type) : Type := State -> result A * State.

Definition ret {A} (a : A) : M A := fun st => (Ok a, st).

Definition bind {A B} (m : M A) (k : A -> M B) : M B :=
  fun st =>
    match m st with
    | (Ok a, st') => k a st'
    | (Raise e, st') => (Raise e, st')
    end.

Definition raise {A} (e : exn) : M A := fun st => (Raise e, st).

Definition lift {A} (r : result A) : M A := fun st => (r, st).

Definition gets {A} (f : State -> A) : M A := fun st => (Ok (f st), st).

Definition modify (f : State -> State) : M unit := fun st => (Ok tt, f st).

Notation "'do' x <- m ; k" := (bind m (fun x => k))
  (at level 10, x name, m at level 100, k at level 200).
Notation "'do' ' p <- m ; k" := (bind m (fun x => match x with p => k end))
  (at level 10, p pattern, m at level 100, k at level 200).
Notation "m ;; k" := (bind m (fun _ => k))
  (at level 100, k at level 200, right associativity).

Definition AUTH_BASE_URL : string := "https://www.linkedin.com".
Definition AUTH_URL : string := AUTH_BASE_URL ++ "/uas/authenticate".

Section Client.

(** [settings.COOKIE_PATH]; the settings module is not part of the sources. *)
Variable COOKIE_PATH : string.
Variable world : World.

(** ** The methods *)

Definition _request_session_cookies : M CookieJar :=
  modify (emit (EvGet AUTH_URL)) ;;
  do res <- lift (requests_get world) ;
  ret (cookies res).

Definition _get_cookiejar_file (username : string) : string :=
  COOKIE_PATH ++ username ++ ".jr".

(** A missing file raises [FileNotFoundError], caught; a file holding a falsy
    jar falls out of the [with] block; both reach [return False, None]. *)
Definition _load_cookies_from_cache (username : string)
    : M (bool * option CookieJar) :=
  do disk <- gets files ;
  match disk !! _get_cookiejar_file username with
  | Some jar => if truthy_jar jar then ret (true, Some jar) else ret (false, None)
  | None => ret (false, None)
  end.

Definition _set_session_cookies (cookiejar : CookieJar) (username : string)
    : M unit :=
  modify (set_session_cookies cookiejar) ;;
  do jar <- gets session_cookies ;
  do v <- lift (jar_getitem jar "JSESSIONID") ;
  modify (set_header "csrf-token" (strip dquote v)) ;;
  modify (pickle_dump (_get_cookiejar_file username) cookiejar).

Definition _do_authentication_request (username password : string) : M unit :=
  do anon <- _request_session_cookies ;
  _set_session_cookies anon username ;;
  do jar <- gets session_cookies ;
  do sid <- lift (jar_getitem jar "JSESSIONID") ;
  let payload := mkPayload username password sid in
  do jar <- gets session_cookies ;
  modify (emit (EvPost AUTH_URL payload jar)) ;;
  do res <- lift (requests_post world payload jar) ;
  do data <- lift (match body res with Some d => Ok d | None => Raise JSONDecodeError end) ;
  do challenged <-
    (if truthy_json data
     then do r <- lift (json_getitem data "login_result") ; ret (ne_PASS r)
     else ret false) ;
  if challenged
  then do r <- lift (json_getitem data "login_result") ; raise (ChallengeException r)
  else if (status_code res =? 401)%Z then raise UnauthorizedException
  else if negb (status_code res =? 200)%Z then raise Exception
  else _set_session_cookies (cookies res) username.

Definition authenticate (username password : string) : M unit :=
  do use_cache <- gets _use_cookie_cache ;
  if use_cache
  then
    do '(found, cached) <- _load_cookies_from_cache username ;
    if found
    then match cached with
         | Some jar =>
             if _is_token_still_valid (time_time world) jar
             then ret tt
             else _do_authentication_request username password
         | None => raise TypeError
         end
    else _do_authentication_request username password
  else _do_authentication_request username password.

(** ** States reached along the login round trip *)

(** The state a successful [_set_session_cookies] leaves. *)
Definition primed (jar : CookieJar) (v username : string) (st : State) : State :=
  pickle_dump (_get_cookiejar_file username) jar
    (set_header "csrf-token" (strip dquote v) (set_session_cookies jar st)).

(** The state in which the login form has just been posted. *)
Definition posted (anon : CookieJar) (sid username password : string)
    (st : State) : State :=
  emit (EvPost AUTH_URL (mkPayload username password sid) anon)
       (primed anon sid username (emit (EvGet AUTH_URL) st)).

(** The part of [_do_authentication_request] that follows [requests.post]. *)
Definition interpret_response (res : Response) (username : string) : M unit :=
  do data <- lift (match body res with Some d => Ok d | None => Raise JSONDecodeError end) ;
  do challenged <-
    (if truthy_json data
     then do r <- lift (json_getitem data "login_result") ; ret (ne_PASS r)
     else ret false) ;
  if challenged
  then do r <- lift (json_getitem data "login_result") ; raise (ChallengeException r)
  else if (status_code res =? 401)%Z then raise UnauthorizedException
  else if negb (status_code res =? 200)%Z then raise Exception
  else _set_session_cookies (cookies res) username.

(** The cache decides the call: reuse is on, the file holds a truthy jar and
    the validator accepts it. *)
Definition reuses_cache (username : string) (st : State) : bool :=
  _use_cookie_cache st &&
  match files st !! _get_cookiejar_file username with
  | Some jar => truthy_jar jar && _is_token_still_valid (time_time world) jar
  | None => false
  end.

End Client.

(** ** Construction and accessors *)

(** [Client.REQUEST_HEADERS]; the user agent is the three parts joined by
    spaces. *)
Definition REQUEST_HEADERS : list (string * string) :=
  [("user-agent",
    "Mozilla/5.0 (Macintosh; Intel Mac OS X 10_13_5) " ++
    "AppleWebKit/537.36 (KHTML, like Gecko) " ++
    "Chrome/66.0.3359.181 Safari/537.36");
   ("accept-language", "en-AU,en-GB;q=0.9,en-US;q=0.8,en;q=0.7");
   ("x-li-lang", "en_US");
   ("x-restli-protocol-version", "2.0.0")].

(** [headers.update(d)]: each pair of [d] is set in turn.  The session's
    headers compare names without case; the map is keyed by the lower-case
    name, which is how every name of this file is written. *)
Definition headers_update (d : list (string * string))
    (headers : gmap string string) : gmap string string :=
  foldl (fun h kv => <[kv.1 := kv.2]> h) headers d.

(** [Client.__init__], on the part of the client the methods read:
    [default_headers] are the headers of a new [requests.session()] and
    [disk] the cache files present.  The logging setup and the proxies do not
    enter the state; creating [settings.COOKIE_PATH] when it is missing is
    what lets [pickle_dump] open its file. *)
Definition __init__ (refresh_cookies : bool)
    (default_headers : gmap string string)
    (disk : gmap string CookieJar) : State :=
  mkState (negb refresh_cookies) []
          (headers_update REQUEST_HEADERS default_headers) disk [].

(** The [cookies] property. *)
Definition Client_cookies : M CookieJar := gets session_cookies.

(** ** Outcomes of the round trip *)

(** Every way [_do_authentication_request] can end, with the state it leaves:
    the GET fails; the anonymous jar has no usable JSESSIONID; the POST fails;
    the response is refused where it stands; the response is accepted but its
    jar has no usable JSESSIONID; the response jar is installed. *)
Inductive round_trip (P : string) (w : World) (username password : string)
    (st : State) : result unit -> State -> Prop :=
| rt_get_failed (e : exn) :
    requests_get w = Raise e ->
    round_trip P w username password st (Raise e) (emit (EvGet AUTH_URL) st)
| rt_no_session_id (r0 : Response) (e : exn) :
    requests_get w = Ok r0 ->
    jar_getitem (cookies r0) "JSESSIONID" = Raise e ->
    round_trip P w username password st (Raise e)
      (set_session_cookies (cookies r0) (emit (EvGet AUTH_URL) st))
| rt_post_failed (r0 : Response) (sid : string) (e : exn) :
    requests_get w = Ok r0 ->
    jar_getitem (cookies r0) "JSESSIONID" = Ok sid ->
    requests_post w (mkPayload username password sid) (cookies r0) = Raise e ->
    round_trip P w username password st (Raise e)
      (posted P (cookies r0) sid username password st)
| rt_refused (r0 res : Response) (sid : string) (e : exn) :
    requests_get w = Ok r0 ->
    jar_getitem (cookies r0) "JSESSIONID" = Ok sid ->
    requests_post w (mkPayload username password sid) (cookies r0) = Ok res ->
    interpret_response P res username
      (posted P (cookies r0) sid username password st)
    = (Raise e, posted P (cookies r0) sid username password st) ->
    round_trip P w username password st (Raise e)
      (posted P (cookies r0) sid username password st)
| rt_no_new_session_id (r0 res : Response) (sid : string) (data : json)
    (e : exn) :
    requests_get w = Ok r0 ->
    jar_getitem (cookies r0) "JSESSIONID" = Ok sid ->
    requests_post w (mkPayload username password sid) (cookies r0) = Ok res ->
    status_code res = 200%Z ->
    body res = Some data -> passes_challenge data ->
    jar_getitem (cookies res) "JSESSIONID" = Raise e ->
    round_trip P w username password st (Raise e)
      (set_session_cookies (cookies res)
         (posted P (cookies r0) sid username password st))
| rt_success (r0 res : Response) (sid v : string) (data : json) :
    requests_get w = Ok r0 ->
    jar_getitem (cookies r0) "JSESSIONID" = Ok sid ->
    requests_post w (mkPayload username password sid) (cookies r0) = Ok res ->
    status_code res = 200%Z ->
    body res = Some data -> passes_challenge data ->
    jar_getitem (cookies res) "JSESSIONID" = Ok v ->
    round_trip P w username password st (Ok tt)
      (primed P (cookies res) v username
         (posted P (cookies r0) sid username password st)).

(** An effect is no write, or a write of a jar with a JSESSIONID value at
    the path computed for the username. *)
Definition writes_own_file (P username : string) (ev : event) : Prop :=
  match ev with
  | EvDump file jar =>
      file = _get_cookiejar_file P username /\
      exists v, jar_getitem jar "JSESSIONID" = Ok v
  | _ => True
  end.

(** ** Concrete scenarios *)

Definition session_cookie (v : string) (e : option Z) : Cookie :=
  mkCookie "JSESSIONID" (Some v) e ".www.linkedin.com" "/".

Definition empty_state (use_cache : bool) : State :=
  mkState use_cache [] ∅ ∅ [].

(** A clock reading, one hour later and one day later. *)
Definition t0 : Z := 1700000000.
Definition t_1h : Z := (t0 + 3600)%Z.
Definition t_24h : Z := (t0 + 86400)%Z.

Definition jar_abc : CookieJar := [session_cookie "abc" (Some t_1h)].
Definition jar_xyz : CookieJar := [session_cookie "xyz" (Some t_24h)].

(** A session cookie without a value, not yet expired. *)
Definition jar_blank : CookieJar := [session_cookie "" (Some t_1h)].

(** The blank cookie followed by a valued one, fresh or stale. *)
Definition jar_blank_fresh : CookieJar :=
  [session_cookie "" (Some t_1h); session_cookie "abc" (Some t_1h)].
Definition jar_blank_stale : CookieJar :=
  [session_cookie "" (Some t_1h); session_cookie "abc" (Some (t0 - 1)%Z)].

(** A client with reuse on and one pickled jar on disk. *)
Definition state_with_cache (file : string) (jar : CookieJar) : State :=
  mkState true [] ∅ {[ file := jar ]} [].

Definition quoted (s : string) : string :=
  String dquote (s ++ String dquote EmptyString).

(** The session cookie as the service sends it, its value in quotes. *)
Definition jar_quoted : CookieJar :=
  [session_cookie (quoted "ajax:123") (Some t_1h)].

Definition login_body (r : string) : json := JObj [("login_result", JStr r)].

(** A service that hands out [jar_abc] and answers every login the same way. *)
Definition world_of (status : Z) (data : json) (jar : CookieJar) : World :=
  mkWorld (inject_Z t0)
          (Ok (mkResponse 200 (Some (JObj [])) jar_abc))
          (fun _ _ => Ok (mkResponse status (Some data) jar)).

Definition world_pass : World := world_of 200 (login_body "PASS") jar_xyz.

(** ** The token validator *)

Lemma expires_gt_true (e : Z) (now : Q) :
  (now < inject_Z e)%Q -> expires_gt (Some e) now = true.
Proof.
  intros Hlt. unfold expires_gt.
  destruct (Qle_bool (inject_Z e) now) eqn:Hle; [|reflexivity].
  apply Qle_bool_iff in Hle. exfalso. exact (Qlt_not_le _ _ Hlt Hle).
Qed.

Lemma expires_gt_false (e : Z) (now : Q) :
  (inject_Z e <= now)%Q -> expires_gt (Some e) now = false.
Proof.
  intros Hle. unfold expires_gt.
  apply Qle_bool_iff in Hle. now rewrite Hle.
Qed.

(** Cookies failing the guard are skipped by the loop. *)
Lemma valid_skip (now : Q) (pre rest : CookieJar) :
  Forall (fun c => is_session_token c = false) pre ->
  _is_token_still_valid now (pre ++ rest) = _is_token_still_valid now rest.
Proof.
  induction 1 as [|c pre Hc _ IH]; simpl; [reflexivity|].
  now rewrite Hc.
Qed.

(** The loop decides at the first cookie passing the guard. *)
Lemma valid_first (now : Q) (pre : CookieJar) (c : Cookie) (post : CookieJar) :
  Forall (fun c => is_session_token c = false) pre ->
  is_session_token c = true ->
  _is_token_still_valid now (pre ++ c :: post) = unexpired now c.
Proof.
  intros Hpre Hc. rewrite valid_skip by assumption.
  simpl. rewrite Hc. now destruct (unexpired now c).
Qed.

Lemma valid_none (now : Q) (jar : CookieJar) :
  Forall (fun c => is_session_token c = false) jar ->
  _is_token_still_valid now jar = false.
Proof.
  intros H. rewrite <- (app_nil_r jar). now rewrite valid_skip.
Qed.

(** C2, as stated, fails: a jar whose only cookie is a JSESSIONID cookie
    expiring after [now] is rejected when that cookie has an empty value. *)
Lemma C2_blank_value_rejected :
  exists c e,
    In c jar_blank /\ name c = "JSESSIONID" /\ expires c = Some e /\
    (inject_Z t0 < inject_Z e)%Q /\
    _is_token_still_valid (inject_Z t0) jar_blank = false.
Proof.
  exists (session_cookie "" (Some t_1h)), t_1h.
  repeat split; try reflexivity. now left.
Qed.

(** C2 (amended): the verdict is read off the first cookie named JSESSIONID
    with a non-empty value.  A non-zero expiry strictly after [now] gives
    true; an expiry at or before [now] gives false; no expiry gives false;
    and a jar with no such cookie, in particular one with no JSESSIONID
    cookie at all, gives false. *)
Theorem C2_verdict_of_first_token (now : Q) (pre : CookieJar) (c : Cookie)
    (post jar : CookieJar) :
  Forall (fun c => is_session_token c = false) pre ->
  name c = "JSESSIONID" -> truthy_str (value c) = true ->
  (forall e, expires c = Some e -> e <> 0%Z -> (now < inject_Z e)%Q ->
     _is_token_still_valid now (pre ++ c :: post) = true) /\
  (forall e, expires c = Some e -> (inject_Z e <= now)%Q ->
     _is_token_still_valid now (pre ++ c :: post) = false) /\
  (expires c = None -> _is_token_still_valid now (pre ++ c :: post) = false) /\
  (Forall (fun c => name c <> "JSESSIONID" \/ truthy_str (value c) = false) jar ->
     _is_token_still_valid now jar = false).
Proof.
  intros Hpre Hn Hv.
  assert (Hc : is_session_token c = true).
  { unfold is_session_token. rewrite Hn, Hv. reflexivity. }
  repeat split.
  - intros e He Hnz Hlt. rewrite valid_first by assumption.
    unfold unexpired. rewrite He, expires_gt_true by assumption.
    simpl. now apply Z.eqb_neq in Hnz as ->.
  - intros e He Hle. rewrite valid_first by assumption.
    unfold unexpired. rewrite He, expires_gt_false by assumption.
    apply andb_false_r.
  - intros He. rewrite valid_first by assumption.
    unfold unexpired. now rewrite He.
  - intros Hjar. apply valid_none.
    eapply Forall_impl; [exact Hjar|]. cbv beta. intros c' [Hne|Hblank].
    + unfold is_session_token.
      destruct (String.eqb_spec (name c') "JSESSIONID"); [contradiction|reflexivity].
    + unfold is_session_token. rewrite Hblank. apply andb_false_r.
Qed.

Lemma C2_verdict_of_first_token_witness :
  _is_token_still_valid (inject_Z t0) ([] ++ session_cookie "abc" (Some t_1h) :: []) = true
  /\ _is_token_still_valid (inject_Z t0) [] = false.
Proof.
  pose proof (C2_verdict_of_first_token (inject_Z t0) []
                (session_cookie "abc" (Some t_1h)) [] []
                (List.Forall_nil _) eq_refl eq_refl) as (Hfresh & _ & _ & Habsent).
  split.
  - apply (Hfresh t_1h); [reflexivity|discriminate|reflexivity].
  - apply Habsent. constructor.
Defined.

(** C7, as stated, fails: two jars share their first JSESSIONID cookie, which
    has an empty value, and the validator's verdicts differ with the second
    JSESSIONID cookie. *)
Lemma C7_first_occurrence_not_decisive :
  head jar_blank_fresh = head jar_blank_stale /\
  (name <$> head jar_blank_fresh) = Some "JSESSIONID" /\
  _is_token_still_valid (inject_Z t0) jar_blank_fresh = true /\
  _is_token_still_valid (inject_Z t0) jar_blank_stale = false.
Proof. repeat split. Qed.

(** C7 (amended): the verdict is that of the first cookie named JSESSIONID
    with a non-empty value; the scan stops there, so the cookies after it,
    whatever their names and attributes, do not change the verdict. *)
Theorem C7_first_token_wins (now : Q) (pre : CookieJar) (c : Cookie)
    (post post' : CookieJar) :
  Forall (fun c => is_session_token c = false) pre ->
  is_session_token c = true ->
  _is_token_still_valid now (pre ++ c :: post) = unexpired now c /\
  _is_token_still_valid now (pre ++ c :: post) =
  _is_token_still_valid now (pre ++ c :: post').
Proof.
  intros Hpre Hc. split.
  - now apply valid_first.
  - now rewrite !valid_first.
Qed.

Lemma C7_first_token_wins_witness :
  _is_token_still_valid (inject_Z t0) ([] ++ session_cookie "abc" (Some t_1h) :: jar_xyz)
  = _is_token_still_valid (inject_Z t0) ([] ++ session_cookie "abc" (Some t_1h) :: jar_blank_stale).
Proof.
  apply (C7_first_token_wins (inject_Z t0) [] (session_cookie "abc" (Some t_1h))
           jar_xyz jar_blank_stale (List.Forall_nil _) eq_refl).
Defined.

(** ** Running the methods *)

Example strip_quoted : strip dquote (quoted "ajax:123") = "ajax:123".
Proof. reflexivity. Qed.

Lemma ne_PASS_true (v : json) : v <> JStr "PASS" -> ne_PASS v = true.
Proof.
  destruct v as [| | |s| |]; try reflexivity.
  intros Hne. simpl. destruct (String.eqb_spec s "PASS"); [subst; contradiction|reflexivity].
Qed.

Lemma set_session_cookies_ok (P : string) (jar : CookieJar) (username v : string)
    (st : State) :
  jar_getitem jar "JSESSIONID" = Ok v ->
  _set_session_cookies P jar username st = (Ok tt, primed P jar v username st).
Proof.
  intros Hv. unfold _set_session_cookies, bind, modify, gets, lift. simpl.
  now rewrite Hv.
Qed.

Lemma set_session_cookies_raise (P : string) (jar : CookieJar) (username : string)
    (e : exn) (st : State) :
  jar_getitem jar "JSESSIONID" = Raise e ->
  _set_session_cookies P jar username st = (Raise e, set_session_cookies jar st).
Proof.
  intros Hv. unfold _set_session_cookies, bind, modify, gets, lift. simpl.
  now rewrite Hv.
Qed.

(** Up to the POST the round trip is determined by the anonymous jar. *)
Lemma do_auth_posted (P : string) (w : World) (username password : string)
    (st : State) (r0 : Response) (sid : string) :
  requests_get w = Ok r0 ->
  jar_getitem (cookies r0) "JSESSIONID" = Ok sid ->
  _do_authentication_request P w username password st =
  match requests_post w (mkPayload username password sid) (cookies r0) with
  | Ok res =>
      interpret_response P res username
        (posted P (cookies r0) sid username password st)
  | Raise e => (Raise e, posted P (cookies r0) sid username password st)
  end.
Proof.
  intros Hget Hsid.
  unfold _do_authentication_request, _request_session_cookies.
  unfold bind at 1. unfold bind at 1. unfold modify at 1.
  unfold bind at 1. unfold lift at 1. rewrite Hget. unfold ret at 1.
  unfold bind at 1. rewrite (set_session_cookies_ok _ _ _ _ _ Hsid).
  unfold bind at 1, gets at 1.
  cbn [primed session_cookies pickle_dump set_header set_session_cookies].
  unfold bind at 1, lift at 1. rewrite Hsid.
  unfold bind at 1, gets at 1.
  cbn [primed session_cookies pickle_dump set_header set_session_cookies].
  unfold bind at 1, modify at 1.
  unfold bind at 1, lift at 1.
  reflexivity.
Qed.

Lemma interpret_challenge (P : string) (res : Response) (username : string)
    (st : State) (data r : json) :
  body res = Some data -> truthy_json data = true ->
  json_getitem data "login_result" = Ok r -> ne_PASS r = true ->
  interpret_response P res username st = (Raise (ChallengeException r), st).
Proof.
  intros Hb Ht Hr Hne. unfold interpret_response, bind, lift, ret, raise.
  now rewrite Hb, Ht, Hr, Hne.
Qed.

Lemma interpret_passed (P : string) (res : Response) (username : string)
    (st : State) (data : json) :
  body res = Some data -> passes_challenge data ->
  interpret_response P res username st =
  if (status_code res =? 401)%Z then (Raise UnauthorizedException, st)
  else if negb (status_code res =? 200)%Z then (Raise Exception, st)
  else _set_session_cookies P (cookies res) username st.
Proof.
  intros Hb [Hf|Hp]; unfold interpret_response, bind, lift, ret, raise; rewrite Hb.
  - rewrite Hf. now repeat destruct (_ =? _)%Z.
  - rewrite Hp. destruct (truthy_json data); simpl; now repeat destruct (_ =? _)%Z.
Qed.

(** The response handler either raises where it stands or, for a 200 whose
    body passes the challenge check, hands the response jar over. *)
Lemma interpret_response_cases (P : string) (res : Response) (username : string)
    (st : State) :
  (exists e, interpret_response P res username st = (Raise e, st)) \/
  (status_code res = 200%Z /\
   (exists data, body res = Some data /\ passes_challenge data) /\
   interpret_response P res username st =
   _set_session_cookies P (cookies res) username st).
Proof.
  destruct (body res) as [data|] eqn:Hb.
  - assert (Hdec : passes_challenge data \/
                   exists r, truthy_json data = true /\
                     (json_getitem data "login_result" = Ok r /\ ne_PASS r = true)
                   \/ truthy_json data = true /\
                      exists e, json_getitem data "login_result" = Raise e).
    { unfold passes_challenge.
      destruct (truthy_json data); [|now left; left].
      destruct (json_getitem data "login_result") as [r|e] eqn:Hr.
      - destruct (ne_PASS r) eqn:Hne.
        + right. exists r. left. now repeat split.
        + left. right. f_equal.
          destruct r as [| | |s| |]; try discriminate.
          simpl in Hne. apply negb_false_iff in Hne.
          now apply String.eqb_eq in Hne as ->.
      - right. exists JNull. right. split; [reflexivity|now exists e]. }
    destruct Hdec as [Hp|(r & [(Ht & Hr & Hne)|(Ht & e & He)])].
    + rewrite (interpret_passed _ _ _ _ _ Hb Hp).
      destruct (status_code res =? 401)%Z eqn:H401; [left; eauto|].
      destruct (status_code res =? 200)%Z eqn:H200; simpl; [|left; eauto].
      right. apply Z.eqb_eq in H200. eauto.
    + left. exists (ChallengeException r). now apply interpret_challenge with data.
    + left. exists e. unfold interpret_response, bind, lift, ret, raise.
      now rewrite Hb, Ht, He.
  - left. exists JSONDecodeError. unfold interpret_response, bind, lift.
    now rewrite Hb.
Qed.

Lemma authenticate_full (P : string) (w : World) (username password : string)
    (st : State) :
  reuses_cache P w username st = false ->
  authenticate P w username password st =
  _do_authentication_request P w username password st.
Proof.
  unfold reuses_cache, authenticate, _load_cookies_from_cache, bind, gets, ret.
  destruct (_use_cookie_cache st); [|reflexivity].
  destruct (files st !! _get_cookiejar_file P username) as [jar|]; [|reflexivity].
  destruct (truthy_jar jar); [|reflexivity].
  simpl. now intros ->.
Qed.

Lemma authenticate_reuse (P : string) (w : World) (username password : string)
    (st : State) :
  reuses_cache P w username st = true ->
  authenticate P w username password st = (Ok tt, st).
Proof.
  unfold reuses_cache, authenticate, _load_cookies_from_cache, bind, gets, ret.
  destruct (_use_cookie_cache st); [|discriminate].
  destruct (files st !! _get_cookiejar_file P username) as [jar|]; [|discriminate].
  destruct (truthy_jar jar); [|discriminate].
  simpl. now intros ->.
Qed.

(** ** Reusing the cache *)

(** C1: with cache reuse on, a successful load and a jar the validator
    accepts, [authenticate] returns at once and leaves the whole state as it
    was: the effect log gains no GET and no POST, whatever the network would
    have answered. *)
Theorem C1_valid_cache_no_network (P : string) (w : World)
    (username password : string) (st : State) (jar : CookieJar) :
  _use_cookie_cache st = true ->
  fst (_load_cookies_from_cache P username st) = Ok (true, Some jar) ->
  _is_token_still_valid (time_time w) jar = true ->
  authenticate P w username password st = (Ok tt, st) /\
  filter is_network (log (snd (authenticate P w username password st))) =
  filter is_network (log st).
Proof.
  intros Huse Hload Hvalid.
  assert (Hreuse : reuses_cache P w username st = true).
  { unfold reuses_cache. rewrite Huse. simpl.
    unfold _load_cookies_from_cache, bind, gets, ret in Hload.
    destruct (files st !! _get_cookiejar_file P username) as [jar'|];
      [|discriminate].
    destruct (truthy_jar jar'); [|discriminate].
    simpl in Hload. injection Hload as ->. now rewrite Hvalid. }
  rewrite (authenticate_reuse _ _ _ _ _ Hreuse). now split.
Qed.

Lemma C1_valid_cache_no_network_witness :
  authenticate "cookies/" world_pass "alice" "secret"
    (state_with_cache "cookies/alice.jr" jar_xyz)
  = (Ok tt, state_with_cache "cookies/alice.jr" jar_xyz).
Proof.
  apply (C1_valid_cache_no_network "cookies/" world_pass "alice" "secret"
           (state_with_cache "cookies/alice.jr" jar_xyz) jar_xyz).
  - reflexivity.
  - unfold _load_cookies_from_cache, bind, gets, ret. simpl.
    now rewrite lookup_singleton_eq.
  - reflexivity.
Defined.

(** C9: a cache file holding an empty jar loads to the very result of a
    missing file, and [authenticate] then runs the full round trip. *)
Theorem C9_empty_cached_jar_is_a_miss (P : string) (w : World)
    (username password : string) (st : State) (jar : CookieJar) :
  files st !! _get_cookiejar_file P username = Some jar ->
  truthy_jar jar = false ->
  _load_cookies_from_cache P username st = (Ok (false, None), st) /\
  (forall st0 : State,
     files st0 !! _get_cookiejar_file P username = None ->
     _load_cookies_from_cache P username st0 = (Ok (false, None), st0)) /\
  authenticate P w username password st =
  _do_authentication_request P w username password st.
Proof.
  intros Hfile Hfalsy. repeat split.
  - unfold _load_cookies_from_cache, bind, gets, ret. now rewrite Hfile, Hfalsy.
  - intros st0 Hnone. unfold _load_cookies_from_cache, bind, gets, ret.
    now rewrite Hnone.
  - apply authenticate_full. unfold reuses_cache.
    rewrite Hfile, Hfalsy. apply andb_false_r.
Qed.

Lemma C9_empty_cached_jar_is_a_miss_witness :
  authenticate "cookies/" world_pass "alice" "secret"
    (state_with_cache "cookies/alice.jr" [])
  = _do_authentication_request "cookies/" world_pass "alice" "secret"
      (state_with_cache "cookies/alice.jr" []).
Proof.
  apply (C9_empty_cached_jar_is_a_miss "cookies/" world_pass "alice" "secret"
           (state_with_cache "cookies/alice.jr" []) []).
  - simpl. now rewrite lookup_singleton_eq.
  - reflexivity.
Defined.

(** ** Interpreting the login response *)

(** C3: when the decoded body has a [login_result] other than ["PASS"], the
    round trip raises [ChallengeException] with that value; no condition is
    put on the status code, which is tested only afterwards. *)
Theorem C3_challenge_before_status (P : string) (w : World)
    (username password : string) (st : State) (r0 res : Response)
    (sid : string) (fields : list (string * json)) (v : json) :
  requests_get w = Ok r0 ->
  jar_getitem (cookies r0) "JSESSIONID" = Ok sid ->
  requests_post w (mkPayload username password sid) (cookies r0) = Ok res ->
  body res = Some (JObj fields) ->
  dict_get fields "login_result" = Some v ->
  v <> JStr "PASS" ->
  fst (_do_authentication_request P w username password st)
  = Raise (ChallengeException v) /\
  (reuses_cache P w username st = false ->
   fst (authenticate P w username password st) = Raise (ChallengeException v)).
Proof.
  intros Hget Hsid Hpost Hbody Hfield Hne.
  assert (Hrun : fst (_do_authentication_request P w username password st)
                 = Raise (ChallengeException v)).
  { rewrite (do_auth_posted _ _ _ _ _ _ _ Hget Hsid), Hpost.
    rewrite (interpret_challenge _ _ _ _ _ v Hbody); try reflexivity.
    - destruct fields; [discriminate|reflexivity].
    - simpl. now rewrite Hfield.
    - now apply ne_PASS_true. }
  split; [exact Hrun|].
  intros Hfull. now rewrite authenticate_full.
Qed.

Lemma C3_challenge_before_status_witness :
  fst (authenticate "cookies/" (world_of 200 (login_body "CHALLENGE") jar_xyz)
         "alice" "secret" (empty_state true))
  = Raise (ChallengeException (JStr "CHALLENGE")).
Proof.
  apply (C3_challenge_before_status "cookies/"
           (world_of 200 (login_body "CHALLENGE") jar_xyz) "alice" "secret"
           (empty_state true) (mkResponse 200 (Some (JObj [])) jar_abc)
           (mkResponse 200 (Some (login_body "CHALLENGE")) jar_xyz) "abc"
           [("login_result", JStr "CHALLENGE")] (JStr "CHALLENGE"));
    try reflexivity.
  discriminate.
Defined.

(** C5, as stated, fails: a 401 whose body carries a [login_result] other
    than ["PASS"] raises [ChallengeException], not [UnauthorizedException]. *)
Lemma C5_unauthorized_masked_by_challenge :
  status_code (mkResponse 401 (Some (login_body "BAD_PASSWORD")) []) = 401%Z /\
  fst (authenticate "cookies/" (world_of 401 (login_body "BAD_PASSWORD") [])
         "alice" "secret" (empty_state true))
  = Raise (ChallengeException (JStr "BAD_PASSWORD")).
Proof. split; reflexivity. Qed.

(** C5 (amended): a 401 whose body passes the challenge check raises
    [UnauthorizedException]. *)
Theorem C5_unauthorized_after_challenge_check (P : string) (w : World)
    (username password : string) (st : State) (r0 res : Response)
    (sid : string) (data : json) :
  requests_get w = Ok r0 ->
  jar_getitem (cookies r0) "JSESSIONID" = Ok sid ->
  requests_post w (mkPayload username password sid) (cookies r0) = Ok res ->
  body res = Some data ->
  passes_challenge data ->
  status_code res = 401%Z ->
  fst (_do_authentication_request P w username password st)
  = Raise UnauthorizedException /\
  (reuses_cache P w username st = false ->
   fst (authenticate P w username password st) = Raise UnauthorizedException).
Proof.
  intros Hget Hsid Hpost Hbody Hpass H401.
  assert (Hrun : fst (_do_authentication_request P w username password st)
                 = Raise UnauthorizedException).
  { rewrite (do_auth_posted _ _ _ _ _ _ _ Hget Hsid), Hpost.
    rewrite (interpret_passed _ _ _ _ _ Hbody Hpass), H401. reflexivity. }
  split; [exact Hrun|].
  intros Hfull. now rewrite authenticate_full.
Qed.

Lemma C5_unauthorized_after_challenge_check_witness :
  fst (authenticate "cookies/" (world_of 401 (JObj []) []) "alice" "secret"
         (empty_state true))
  = Raise UnauthorizedException.
Proof.
  apply (C5_unauthorized_after_challenge_check "cookies/"
           (world_of 401 (JObj []) []) "alice" "secret" (empty_state true)
           (mkResponse 200 (Some (JObj [])) jar_abc)
           (mkResponse 401 (Some (JObj [])) []) "abc" (JObj []));
    try reflexivity.
  now left.
Defined.

(** C8, as stated, fails: a 500 and a 503 give the same result and the same
    final state, a bare [Exception] from which the status cannot be read. *)
Lemma C8_exception_without_status :
  fst (authenticate "cookies/" (world_of 500 (JObj []) []) "alice" "secret"
         (empty_state true)) = Raise Exception /\
  authenticate "cookies/" (world_of 500 (JObj []) []) "alice" "secret"
    (empty_state true)
  = authenticate "cookies/" (world_of 503 (JObj []) []) "alice" "secret"
      (empty_state true).
Proof. split; reflexivity. Qed.

(** C8 (amended): a response whose body passes the challenge check and whose
    status is neither 200 nor 401 raises a bare [Exception], which carries no
    status code. *)
Theorem C8_other_status_raises_exception (P : string) (w : World)
    (username password : string) (st : State) (r0 res : Response)
    (sid : string) (data : json) :
  requests_get w = Ok r0 ->
  jar_getitem (cookies r0) "JSESSIONID" = Ok sid ->
  requests_post w (mkPayload username password sid) (cookies r0) = Ok res ->
  body res = Some data ->
  passes_challenge data ->
  status_code res <> 200%Z -> status_code res <> 401%Z ->
  fst (_do_authentication_request P w username password st) = Raise Exception /\
  (reuses_cache P w username st = false ->
   fst (authenticate P w username password st) = Raise Exception).
Proof.
  intros Hget Hsid Hpost Hbody Hpass H200 H401.
  assert (Hrun : fst (_do_authentication_request P w username password st)
                 = Raise Exception).
  { rewrite (do_auth_posted _ _ _ _ _ _ _ Hget Hsid), Hpost.
    rewrite (interpret_passed _ _ _ _ _ Hbody Hpass).
    apply Z.eqb_neq in H200, H401. now rewrite H200, H401. }
  split; [exact Hrun|].
  intros Hfull. now rewrite authenticate_full.
Qed.

Lemma C8_other_status_raises_exception_witness :
  fst (authenticate "cookies/" (world_of 500 (JObj []) []) "alice" "secret"
         (empty_state true))
  = Raise Exception.
Proof.
  apply (C8_other_status_raises_exception "cookies/"
           (world_of 500 (JObj []) []) "alice" "secret" (empty_state true)
           (mkResponse 200 (Some (JObj [])) jar_abc)
           (mkResponse 500 (Some (JObj [])) []) "abc" (JObj []));
    try reflexivity; try discriminate.
  now left.
Defined.

(** ** Writing the cache *)

(** C4: the code breaks the claim.  A login refused with a 401 leaves the
    anonymous, unauthenticated jar in the identity's cache file, which was
    absent before the call: [_do_authentication_request] primes the session
    through [_set_session_cookies], which also pickles the jar, so the dump
    precedes the POST in the effect log.  The path of [authenticate] that
    reuses the cache trusts any unexpired cached jar: the next call with the
    same refused credentials returns normally and sends nothing. *)
Lemma C4_anonymous_jar_cached_on_failure :
  files (empty_state true) !! "cookies/alice.jr" = None /\
  fst (authenticate "cookies/" (world_of 401 (JObj []) []) "alice" "secret"
         (empty_state true)) = Raise UnauthorizedException /\
  files (snd (authenticate "cookies/" (world_of 401 (JObj []) []) "alice"
                "secret" (empty_state true))) !! "cookies/alice.jr"
  = Some jar_abc /\
  log (snd (authenticate "cookies/" (world_of 401 (JObj []) []) "alice"
              "secret" (empty_state true)))
  = [EvGet AUTH_URL; EvDump "cookies/alice.jr" jar_abc;
     EvPost AUTH_URL (mkPayload "alice" "secret" "abc") jar_abc] /\
  authenticate "cookies/" (world_of 401 (JObj []) []) "alice" "secret"
    (snd (authenticate "cookies/" (world_of 401 (JObj []) []) "alice"
            "secret" (empty_state true)))
  = (Ok tt,
     snd (authenticate "cookies/" (world_of 401 (JObj []) []) "alice"
            "secret" (empty_state true))).
Proof. repeat split. Qed.

(** C6: for identity "alice" with no cache file, an anonymous jar with
    JSESSIONID "abc" (whatever its expiry) and a 200 answer with body [{"login_result": "PASS"}]
    and a jar with JSESSIONID "xyz", [authenticate] returns normally; the
    cache file of "alice" then holds the response jar, which is also the
    session's jar, in place of the anonymous one. *)
Theorem C6_end_to_end_alice (P : string) (w : World) (password : string)
    (st : State) (r0 res : Response) (e1 e2 : Z) :
  files st !! _get_cookiejar_file P "alice" = None ->
  requests_get w = Ok r0 ->
  cookies r0 = [session_cookie "abc" (Some e1)] ->
  requests_post w (mkPayload "alice" password "abc") (cookies r0) = Ok res ->
  status_code res = 200%Z ->
  body res = Some (login_body "PASS") ->
  cookies res = [session_cookie "xyz" (Some e2)] ->
  exists st',
    authenticate P w "alice" password st = (Ok tt, st') /\
    files st' !! _get_cookiejar_file P "alice" = Some (cookies res) /\
    cookies res <> cookies r0 /\
    session_cookies st' = cookies res.
Proof.
  intros Hnone Hget Hanon Hpost H200 Hbody Hjar.
  assert (Hsid : jar_getitem (cookies r0) "JSESSIONID" = Ok "abc")
    by now rewrite Hanon.
  assert (Hv : jar_getitem (cookies res) "JSESSIONID" = Ok "xyz")
    by now rewrite Hjar.
  exists (primed P (cookies res) "xyz" "alice"
            (posted P (cookies r0) "abc" "alice" password st)).
  split; [|split; [|split]].
  - rewrite authenticate_full
      by (unfold reuses_cache; rewrite Hnone; apply andb_false_r).
    rewrite (do_auth_posted _ _ _ _ _ _ _ Hget Hsid), Hpost.
    rewrite (interpret_passed _ _ _ _ (login_body "PASS") Hbody), H200
      by now right.
    apply (set_session_cookies_ok _ _ _ _ _ Hv).
  - simpl. apply lookup_insert_eq.
  - rewrite Hanon, Hjar. discriminate.
  - reflexivity.
Qed.

Lemma C6_end_to_end_alice_witness :
  exists st',
    authenticate "cookies/" world_pass "alice" "secret" (empty_state true)
    = (Ok tt, st') /\
    files st' !! "cookies/alice.jr" = Some jar_xyz /\
    jar_xyz <> jar_abc /\
    session_cookies st' = jar_xyz.
Proof.
  apply (C6_end_to_end_alice "cookies/" world_pass "secret" (empty_state true)
           (mkResponse 200 (Some (JObj [])) jar_abc)
           (mkResponse 200 (Some (login_body "PASS")) jar_xyz) t_1h t_24h);
    reflexivity.
Defined.

(** ** Priming the session *)

Lemma append_cons (a : ascii) (r s : string) :
  String a r ++ s = String a (r ++ s).
Proof. reflexivity. Qed.

Lemma append_nil (s : string) : EmptyString ++ s = s.
Proof. reflexivity. Qed.

Lemma lstrip_decompose (ch : ascii) (s : string) :
  exists k, s = copies ch k ++ lstrip ch s.
Proof.
  induction s as [|a rest [k IH]]; [now exists O|].
  cbn [lstrip]. destruct (Ascii.eqb_spec a ch) as [->|Hne].
  - exists (S k). cbn [copies]. rewrite append_cons. now f_equal.
  - now exists O.
Qed.

Lemma lstrip_head (ch : ascii) (s r : string) : lstrip ch s <> String ch r.
Proof.
  induction s as [|a rest IH]; [discriminate|].
  cbn [lstrip]. destruct (Ascii.eqb_spec a ch) as [->|Hne]; [exact IH|].
  intros [= Ha _]. contradiction.
Qed.

Lemma rstrip_decompose (ch : ascii) (s : string) :
  exists k, s = rstrip ch s ++ copies ch k.
Proof.
  induction s as [|a rest [k IH]]; [now exists O|].
  cbn [rstrip]. destruct (rstrip ch rest) as [|b r].
  - rewrite append_nil in IH.
    destruct (Ascii.eqb_spec a ch) as [->|Hne].
    + exists (S k). rewrite append_nil. cbn [copies]. now f_equal.
    + exists k. rewrite append_cons, append_nil. now f_equal.
  - exists k. rewrite append_cons. now f_equal.
Qed.

Lemma append_last_nonempty (r : string) (ch : ascii) :
  r ++ String ch EmptyString <> EmptyString.
Proof. destruct r; [rewrite append_nil|rewrite append_cons]; discriminate. Qed.

Lemma rstrip_last (ch : ascii) (s r : string) :
  rstrip ch s <> r ++ String ch EmptyString.
Proof.
  revert r. induction s as [|a rest IH]; intros r.
  - cbn [rstrip]. intros H. symmetry in H. now apply append_last_nonempty in H.
  - cbn [rstrip]. destruct (rstrip ch rest) as [|b r'] eqn:Hrest.
    + destruct (Ascii.eqb_spec a ch) as [->|Hne].
      * intros H. symmetry in H. now apply append_last_nonempty in H.
      * destruct r as [|x r0].
        -- rewrite append_nil. intros [= Ha]. contradiction.
        -- rewrite append_cons. intros [= _ H]. symmetry in H.
           now apply append_last_nonempty in H.
    + destruct r as [|x r0].
      * rewrite append_nil. discriminate.
      * rewrite append_cons. intros [= _ H]. now apply (IH r0).
Qed.

(** [strip] removes a run of [ch] at either end and leaves none there. *)
Lemma strip_spec (ch : ascii) (s : string) :
  (exists k1 k2, s = copies ch k1 ++ strip ch s ++ copies ch k2) /\
  (forall r, strip ch s <> String ch r) /\
  (forall r, strip ch s <> r ++ String ch EmptyString).
Proof.
  unfold strip. repeat split.
  - destruct (lstrip_decompose ch s) as [k1 H1].
    destruct (rstrip_decompose ch (lstrip ch s)) as [k2 H2].
    exists k1, k2. now rewrite <- H2.
  - intros r Hr.
    destruct (rstrip_decompose ch (lstrip ch s)) as [k H].
    rewrite Hr, append_cons in H. now apply lstrip_head in H.
  - intros r. apply rstrip_last.
Qed.

Lemma find_no_duplicates_some (n : string) (jar : CookieJar)
    (acc : option string) (v : string) :
  _find_no_duplicates n jar acc = Ok (Some v) ->
  acc = Some v \/ exists c, In c jar /\ name c = n /\ value c = Some v.
Proof.
  revert acc. induction jar as [|c rest IH]; intros acc; simpl.
  - intros [= ->]. now left.
  - destruct (String.eqb_spec (name c) n) as [Hn|Hn].
    + destruct acc; [discriminate|]. intros H. right.
      destruct (IH _ H) as [Hv|(c' & Hin & Hn' & Hv)].
      * exists c. auto.
      * exists c'. auto.
    + intros H. destruct (IH _ H) as [Hv|(c' & Hin & Hn' & Hv)].
      * now left.
      * right. exists c'. auto.
Qed.

Lemma find_no_duplicates_absent (n : string) (jar : CookieJar)
    (acc : option string) :
  Forall (fun c => name c <> n) jar -> _find_no_duplicates n jar acc = Ok acc.
Proof.
  induction 1 as [|c rest Hc _ IH]; simpl; [reflexivity|].
  now destruct (String.eqb_spec (name c) n).
Qed.

(** C10: after a successful [_set_session_cookies] the session's jar is the
    given jar and the [csrf-token] header is the value of a JSESSIONID cookie
    of that jar with the double quotes at both ends removed; on a jar with
    no JSESSIONID cookie the call raises [KeyError]. *)
Theorem C10_csrf_token_tracks_session_cookie (P : string) (jar : CookieJar)
    (username : string) (st : State) :
  (forall st' : State,
     _set_session_cookies P jar username st = (Ok tt, st') ->
     session_cookies st' = jar /\
     exists c v token k1 k2,
       In c jar /\ name c = "JSESSIONID" /\ value c = Some v /\
       session_headers st' !! "csrf-token" = Some token /\
       token = strip dquote v /\
       v = copies dquote k1 ++ token ++ copies dquote k2 /\
       (forall r, token <> String dquote r) /\
       (forall r, token <> r ++ String dquote EmptyString)) /\
  (Forall (fun c => name c <> "JSESSIONID") jar ->
   fst (_set_session_cookies P jar username st) = Raise KeyError).
Proof.
  split.
  - intros st' Hrun.
    destruct (jar_getitem jar "JSESSIONID") as [v|e] eqn:Hv.
    + rewrite (set_session_cookies_ok _ _ _ _ _ Hv) in Hrun.
      injection Hrun as <-. split; [reflexivity|].
      unfold jar_getitem in Hv.
      destruct (_find_no_duplicates "JSESSIONID" jar None) as [[v'|]|] eqn:Hfind;
        try discriminate.
      destruct (negb (v' =? "")); [|discriminate]. injection Hv as ->.
      apply find_no_duplicates_some in Hfind as [|(c & Hin & Hn & Hval)];
        [discriminate|].
      destruct (strip_spec dquote v) as ((k1 & k2 & Hdec) & Hhead & Hlast).
      exists c, v, (strip dquote v), k1, k2.
      repeat split; try assumption. simpl. apply lookup_insert_eq.
    + rewrite (set_session_cookies_raise _ _ _ _ _ Hv) in Hrun. discriminate.
  - intros Habsent.
    rewrite (set_session_cookies_raise _ _ _ KeyError); [reflexivity|].
    unfold jar_getitem. now rewrite find_no_duplicates_absent.
Qed.

Lemma C10_csrf_token_tracks_session_cookie_witness :
  session_cookies
    (snd (_set_session_cookies "cookies/" jar_quoted "alice" (empty_state true)))
  = jar_quoted /\
  fst (_set_session_cookies "cookies/" [] "alice" (empty_state true))
  = Raise KeyError.
Proof.
  split.
  - apply (proj1 (C10_csrf_token_tracks_session_cookie "cookies/" jar_quoted
                    "alice" (empty_state true)) _ eq_refl).
  - apply (C10_csrf_token_tracks_session_cookie "cookies/" [] "alice"
             (empty_state true)).
    constructor.
Defined.

Example csrf_token_of_quoted_session_cookie :
  session_headers
    (snd (_set_session_cookies "cookies/" jar_quoted "alice"
            (empty_state true))) !! "csrf-token"
  = Some "ajax:123".
Proof. reflexivity. Qed.

(** ** Further properties of the token validator *)

Lemma unexpired_true_iff (now : Q) (c : Cookie) :
  unexpired now c = true <->
  exists e, expires c = Some e /\ e <> 0%Z /\ (now < inject_Z e)%Q.
Proof.
  unfold unexpired. destruct (expires c) as [e|]; simpl.
  - rewrite andb_true_iff, negb_true_iff, negb_true_iff, Z.eqb_neq. split.
    + intros [Hnz Hle]. exists e. repeat split; [exact Hnz|].
      apply Qnot_le_lt. intros H. apply Qle_bool_iff in H. congruence.
    + intros (e' & [= <-] & Hnz & Hlt). split; [exact Hnz|].
      destruct (Qle_bool (inject_Z e) now) eqn:Hle; [|reflexivity].
      apply Qle_bool_iff in Hle. exfalso. exact (Qlt_not_le _ _ Hlt Hle).
  - split; [discriminate|]. now intros (e & [=] & _).
Qed.

Lemma is_session_token_iff (c : Cookie) :
  is_session_token c = true <->
  name c = "JSESSIONID" /\ truthy_str (value c) = true.
Proof.
  unfold is_session_token. rewrite andb_true_iff. now rewrite String.eqb_eq.
Qed.

(** The validator accepts a jar exactly when the first cookie named
    JSESSIONID with a non-empty value exists and has a non-zero expiry
    strictly after [now]. *)
Theorem valid_iff_first_token_unexpired (now : Q) (jar : CookieJar) :
  _is_token_still_valid now jar = true <->
  exists pre c post e,
    jar = (pre ++ c :: post)%list /\
    Forall (fun c => is_session_token c = false) pre /\
    name c = "JSESSIONID" /\ truthy_str (value c) = true /\
    expires c = Some e /\ e <> 0%Z /\ (now < inject_Z e)%Q.
Proof.
  split.
  - induction jar as [|c rest IH]; simpl; [discriminate|].
    destruct (is_session_token c) eqn:Hc.
    + destruct (unexpired now c) eqn:Hu; [|discriminate]. intros _.
      apply is_session_token_iff in Hc as [Hn Hv].
      apply unexpired_true_iff in Hu as (e & He & Hnz & Hlt).
      exists [], c, rest, e. repeat split; try assumption. constructor.
    + intros H. destruct (IH H) as (pre & c' & post & e & -> & Hpre & Hrest).
      exists (c :: pre), c', post, e. split; [reflexivity|].
      split; [now constructor|exact Hrest].
  - intros (pre & c & post & e & -> & Hpre & Hn & Hv & He & Hnz & Hlt).
    rewrite valid_first; [|assumption|now apply is_session_token_iff].
    apply unexpired_true_iff. eauto.
Qed.

(** A jar accepted at some time is accepted at every earlier time: validity
    is only ever lost as the clock advances. *)
Theorem valid_at_earlier_time (now1 now2 : Q) (jar : CookieJar) :
  (now1 <= now2)%Q ->
  _is_token_still_valid now2 jar = true ->
  _is_token_still_valid now1 jar = true.
Proof.
  intros Hle. induction jar as [|c rest IH]; simpl; [discriminate|].
  destruct (is_session_token c); [|exact IH].
  destruct (unexpired now2 c) eqn:Hu; [|discriminate]. intros _.
  apply unexpired_true_iff in Hu as (e & He & Hnz & Hlt).
  assert (Hu1 : unexpired now1 c = true).
  { apply unexpired_true_iff. exists e. repeat split; try assumption.
    exact (Qle_lt_trans _ _ _ Hle Hlt). }
  now rewrite Hu1.
Qed.

Lemma valid_at_earlier_time_witness :
  _is_token_still_valid (inject_Z (t0 - 60)) jar_abc = true.
Proof.
  apply (valid_at_earlier_time (inject_Z (t0 - 60)) (inject_Z t0) jar_abc).
  - discriminate.
  - reflexivity.
Defined.

(** Only the cookies named JSESSIONID with a non-empty value bear on the
    verdict: dropping every other cookie from the jar leaves it unchanged. *)
Theorem valid_ignores_other_cookies (now : Q) (jar : CookieJar) :
  _is_token_still_valid now jar =
  _is_token_still_valid now (List.filter is_session_token jar).
Proof.
  induction jar as [|c rest IH]; simpl; [reflexivity|].
  destruct (is_session_token c) eqn:Hc; simpl; [|exact IH].
  now rewrite Hc.
Qed.

(** ** Cache file names *)

Lemma length_append (a s : string) :
  String.length (a ++ s) = String.length a + String.length s.
Proof.
  induction a as [|x a IH]; [reflexivity|].
  rewrite append_cons. cbn [String.length]. now rewrite IH.
Qed.

Lemma append_inv_tail (a b s : string) : a ++ s = b ++ s -> a = b.
Proof.
  revert b. induction a as [|x a IH]; intros [|y b] H.
  - reflexivity.
  - apply (f_equal String.length) in H.
    rewrite append_nil, append_cons in H. cbn [String.length] in H.
    rewrite length_append in H. lia.
  - apply (f_equal String.length) in H.
    rewrite append_nil, append_cons in H. cbn [String.length] in H.
    rewrite length_append in H. lia.
  - rewrite !append_cons in H. injection H as -> H. f_equal. now apply IH.
Qed.

Lemma cookiejar_file_inj (P username username' : string) :
  _get_cookiejar_file P username = _get_cookiejar_file P username' ->
  username = username'.
Proof.
  unfold _get_cookiejar_file. intros H.
  apply String.app_inj in H. now apply append_inv_tail in H.
Qed.

(** The path string computed for a username determines the username: for
    a given [COOKIE_PATH], [_get_cookiejar_file] returns the same string for
    two usernames exactly when they are equal.  (Whether two different path
    strings name one file on disk is a matter of the file system.) *)
Theorem cookiejar_file_injective (P username username' : string) :
  _get_cookiejar_file P username = _get_cookiejar_file P username' <->
  username = username'.
Proof. split; [apply cookiejar_file_inj|now intros ->]. Qed.

(** ** Every outcome of the round trip *)

Lemma do_auth_get_failed (P : string) (w : World) (username password : string)
    (st : State) (e : exn) :
  requests_get w = Raise e ->
  _do_authentication_request P w username password st
  = (Raise e, emit (EvGet AUTH_URL) st).
Proof.
  intros Hget. unfold _do_authentication_request, _request_session_cookies.
  unfold bind, modify, lift. now rewrite Hget.
Qed.

Lemma do_auth_no_session_id (P : string) (w : World)
    (username password : string) (st : State) (r0 : Response) (e : exn) :
  requests_get w = Ok r0 ->
  jar_getitem (cookies r0) "JSESSIONID" = Raise e ->
  _do_authentication_request P w username password st
  = (Raise e, set_session_cookies (cookies r0) (emit (EvGet AUTH_URL) st)).
Proof.
  intros Hget Hsid. unfold _do_authentication_request, _request_session_cookies.
  unfold bind at 1. unfold bind at 1. unfold modify at 1.
  unfold bind at 1. unfold lift at 1. rewrite Hget. unfold ret at 1.
  unfold bind at 1. now rewrite (set_session_cookies_raise _ _ _ _ _ Hsid).
Qed.

Lemma do_auth_round_trip (P : string) (w : World) (username password : string)
    (st : State) :
  round_trip P w username password st
    (fst (_do_authentication_request P w username password st))
    (snd (_do_authentication_request P w username password st)).
Proof.
  destruct (requests_get w) as [r0|e] eqn:Hget.
  2:{ rewrite (do_auth_get_failed _ _ _ _ _ _ Hget). now constructor. }
  destruct (jar_getitem (cookies r0) "JSESSIONID") as [sid|e] eqn:Hsid.
  2:{ rewrite (do_auth_no_session_id _ _ _ _ _ _ _ Hget Hsid).
      now apply rt_no_session_id. }
  rewrite (do_auth_posted _ _ _ _ _ _ _ Hget Hsid).
  destruct (requests_post w _ _) as [res|e] eqn:Hpost.
  2:{ now apply rt_post_failed. }
  destruct (interpret_response_cases P res username
              (posted P (cookies r0) sid username password st))
    as [(e & He)|(H200 & (data & Hbody & Hpass) & Hset)].
  - rewrite He. now apply rt_refused with res.
  - rewrite Hset.
    destruct (jar_getitem (cookies res) "JSESSIONID") as [v|e] eqn:Hv.
    + rewrite (set_session_cookies_ok _ _ _ _ _ Hv).
      now apply rt_success with data.
    + rewrite (set_session_cookies_raise _ _ _ _ _ Hv).
      now apply rt_no_new_session_id with data.
Qed.

(** [authenticate] either returns at once or is the round trip. *)
Lemma authenticate_cases (P : string) (w : World) (username password : string)
    (st : State) :
  authenticate P w username password st = (Ok tt, st) \/
  authenticate P w username password st
  = _do_authentication_request P w username password st.
Proof.
  destruct (reuses_cache P w username st) eqn:H.
  - left. now apply authenticate_reuse.
  - right. now apply authenticate_full.
Qed.

(** What a round trip never touches: the cache switch and the headers
    other than [csrf-token]. *)
Lemma round_trip_frame (P : string) (w : World) (username password : string)
    (st st' : State) (r : result unit) :
  round_trip P w username password st r st' ->
  _use_cookie_cache st' = _use_cookie_cache st /\
  (forall k, k <> "csrf-token" ->
     session_headers st' !! k = session_headers st !! k).
Proof.
  intros Hrt. destruct Hrt; simpl; repeat split; try reflexivity; intros x Hx;
    rewrite ?lookup_insert_ne by congruence; reflexivity.
Qed.



Lemma jar_getitem_nonempty (jar : CookieJar) (n v : string) :
  jar_getitem jar n = Ok v -> truthy_jar jar = true.
Proof. now destruct jar. Qed.

(** ** Saving and loading the cache *)

(** A jar saved by [_set_session_cookies] is what [_load_cookies_from_cache]
    returns for the same identity, whatever the file held before. *)
Theorem save_then_load (P : string) (jar : CookieJar) (username : string)
    (st st' : State) :
  _set_session_cookies P jar username st = (Ok tt, st') ->
  _load_cookies_from_cache P username st' = (Ok (true, Some jar), st').
Proof.
  intros Hrun.
  destruct (jar_getitem jar "JSESSIONID") as [v|e] eqn:Hv.
  - rewrite (set_session_cookies_ok _ _ _ _ _ Hv) in Hrun.
    injection Hrun as <-.
    unfold _load_cookies_from_cache, bind, gets, ret. simpl.
    rewrite lookup_insert_eq. now rewrite (jar_getitem_nonempty _ _ _ Hv).
  - rewrite (set_session_cookies_raise _ _ _ _ _ Hv) in Hrun. discriminate.
Qed.

Lemma save_then_load_witness :
  fst (_load_cookies_from_cache "cookies/" "alice"
         (snd (_set_session_cookies "cookies/" jar_xyz "alice"
                 (state_with_cache "cookies/alice.jr" jar_abc))))
  = Ok (true, Some jar_xyz).
Proof.
  exact (f_equal fst
           (save_then_load "cookies/" jar_xyz "alice"
              (state_with_cache "cookies/alice.jr" jar_abc) _ eq_refl)).
Defined.



(** ** What [authenticate] leaves alone *)

Lemma round_trip_writes (P : string) (w : World) (username password : string)
    (st st' : State) (r : result unit) :
  round_trip P w username password st r st' ->
  exists new : list event,
    log st' = (log st ++ new)%list /\
    Forall (writes_own_file P username) new.
Proof.
  intros Hrt. destruct Hrt.
  - exists [EvGet AUTH_URL]. split; [reflexivity|]. now repeat constructor.
  - exists [EvGet AUTH_URL]. split; [reflexivity|]. now repeat constructor.
  - eexists. split; [simpl; rewrite <- !app_assoc; reflexivity|].
    repeat constructor. eauto.
  - eexists. split; [simpl; rewrite <- !app_assoc; reflexivity|].
    repeat constructor. eauto.
  - eexists. split; [simpl; rewrite <- !app_assoc; reflexivity|].
    repeat constructor. eauto.
  - eexists. split; [simpl; rewrite <- !app_assoc; reflexivity|].
    repeat constructor; eauto.
Qed.

(** Whatever its outcome, [authenticate] writes at no path other than the
    one [_get_cookiejar_file] computes for its username, and every jar it
    writes has a JSESSIONID value: it never stores an empty jar. *)
Theorem authenticate_writes_only_own_file (P : string) (w : World)
    (username password : string) (st : State) :
  exists new : list event,
    log (snd (authenticate P w username password st)) = (log st ++ new)%list /\
    Forall (writes_own_file P username) new.
Proof.
  destruct (authenticate_cases P w username password st) as [-> | ->].
  - exists []. split; [now rewrite app_nil_r|constructor].
  - apply (round_trip_writes _ _ _ _ _ _ _
             (do_auth_round_trip P w username password st)).
Qed.

(** Whatever its outcome, [authenticate] leaves the cache switch and every
    session header other than [csrf-token] as they were. *)
Theorem authenticate_keeps_switch_and_headers (P : string) (w : World)
    (username password : string) (st : State) :
  _use_cookie_cache (snd (authenticate P w username password st))
  = _use_cookie_cache st /\
  (forall k, k <> "csrf-token" ->
     session_headers (snd (authenticate P w username password st)) !! k
     = session_headers st !! k).
Proof.
  destruct (authenticate_cases P w username password st) as [-> | ->];
    [now split|].
  destruct (round_trip_frame _ _ _ _ _ _ _
              (do_auth_round_trip P w username password st))
    as (Hswitch & Hheaders).
  now split.
Qed.

(** ** Requests sent by one call *)

Lemma round_trip_log (P : string) (w : World) (username password : string)
    (st st' : State) (r : result unit) :
  round_trip P w username password st r st' ->
  exists new : list event,
    log st' = (log st ++ new)%list /\
    (List.filter is_network new = [EvGet AUTH_URL] \/
     exists anon sid,
       jar_getitem anon "JSESSIONID" = Ok sid /\
       List.filter is_network new
       = [EvGet AUTH_URL;
          EvPost AUTH_URL (mkPayload username password sid) anon]).
Proof.
  intros Hrt. destruct Hrt.
  - exists [EvGet AUTH_URL]. split; [reflexivity|now left].
  - exists [EvGet AUTH_URL]. split; [reflexivity|now left].
  - eexists. split; [simpl; rewrite <- !app_assoc; reflexivity|].
    right. eauto.
  - eexists. split; [simpl; rewrite <- !app_assoc; reflexivity|].
    right. eauto.
  - eexists. split; [simpl; rewrite <- !app_assoc; reflexivity|].
    right. eauto.
  - eexists. split; [simpl; rewrite <- !app_assoc; reflexivity|].
    right. eauto.
Qed.

(** One call of [authenticate] only appends to the effect log, and sends no
    request, or one GET, or one GET followed by one POST: nothing is retried.
    The POST carries the username and password of the call and the
    JSESSIONID value of the cookies it is sent with. *)
Theorem authenticate_network_requests (P : string) (w : World)
    (username password : string) (st : State) :
  exists new : list event,
    log (snd (authenticate P w username password st)) = (log st ++ new)%list /\
    (new = [] \/
     List.filter is_network new = [EvGet AUTH_URL] \/
     exists anon sid,
       jar_getitem anon "JSESSIONID" = Ok sid /\
       List.filter is_network new
       = [EvGet AUTH_URL;
          EvPost AUTH_URL (mkPayload username password sid) anon]).
Proof.
  destruct (authenticate_cases P w username password st) as [-> | ->].
  - exists []. split; [now rewrite app_nil_r|now left].
  - destruct (round_trip_log _ _ _ _ _ _ _
                (do_auth_round_trip P w username password st))
      as (new & Hlog & Hnet).
    exists new. split; [exact Hlog|now right].
Qed.

(** When the anonymous request fails, or its jar yields no JSESSIONID value,
    the call raises that error after the GET alone: no login is posted and no
    cache file is written. *)
Theorem no_post_without_session_id (P : string) (w : World)
    (username password : string) (st : State) (e : exn) :
  requests_get w = Raise e \/
  (exists r0, requests_get w = Ok r0 /\
              jar_getitem (cookies r0) "JSESSIONID" = Raise e) ->
  fst (_do_authentication_request P w username password st) = Raise e /\
  log (snd (_do_authentication_request P w username password st))
  = (log st ++ [EvGet AUTH_URL])%list /\
  files (snd (_do_authentication_request P w username password st)) = files st.
Proof.
  intros [Hget|(r0 & Hget & Hsid)].
  - now rewrite (do_auth_get_failed _ _ _ _ _ _ Hget).
  - now rewrite (do_auth_no_session_id _ _ _ _ _ _ _ Hget Hsid).
Qed.

Lemma no_post_without_session_id_witness :
  log (snd (_do_authentication_request "cookies/"
              (mkWorld (inject_Z t0) (Raise ConnectionError)
                 (fun _ _ => Raise ConnectionError))
              "alice" "secret" (empty_state true)))
  = [EvGet AUTH_URL].
Proof.
  apply (no_post_without_session_id "cookies/"
           (mkWorld (inject_Z t0) (Raise ConnectionError)
              (fun _ _ => Raise ConnectionError))
           "alice" "secret" (empty_state true) ConnectionError).
  now left.
Defined.

(** ** Bodies the response handler cannot read *)

(** Whatever the status code, a body that is not JSON raises the decoding
    error, a truthy body that is not an object raises [TypeError], and a
    non-empty object without [login_result] raises [KeyError]; the state stays
    the one reached when the login was posted. *)
Theorem malformed_body_raises (P : string) (w : World)
    (username password : string) (st : State) (r0 res : Response)
    (sid : string) :
  requests_get w = Ok r0 ->
  jar_getitem (cookies r0) "JSESSIONID" = Ok sid ->
  requests_post w (mkPayload username password sid) (cookies r0) = Ok res ->
  (body res = None ->
   _do_authentication_request P w username password st
   = (Raise JSONDecodeError, posted P (cookies r0) sid username password st)) /\
  (forall data, body res = Some data -> truthy_json data = true ->
     (forall fields, data <> JObj fields) ->
     _do_authentication_request P w username password st
     = (Raise TypeError, posted P (cookies r0) sid username password st)) /\
  (forall fields, body res = Some (JObj fields) -> fields <> [] ->
     dict_get fields "login_result" = None ->
     _do_authentication_request P w username password st
     = (Raise KeyError, posted P (cookies r0) sid username password st)).
Proof.
  intros Hget Hsid Hpost.
  rewrite (do_auth_posted _ _ _ _ _ _ _ Hget Hsid), Hpost.
  unfold interpret_response, bind, lift, ret, raise. repeat split.
  - now intros ->.
  - intros data -> Ht Hobj. rewrite Ht.
    destruct data; try reflexivity. now destruct (Hobj fields).
  - intros fields -> Hne Hnone.
    destruct fields as [|kv rest]; [contradiction|].
    cbn [truthy_json json_getitem]. now rewrite Hnone.
Qed.

Lemma malformed_body_raises_witness :
  _do_authentication_request "cookies/"
    (world_of 200 (JObj [("status", JStr "ok")]) jar_xyz) "alice" "secret"
    (empty_state true)
  = (Raise KeyError, posted "cookies/" jar_abc "abc" "alice" "secret"
                       (empty_state true)).
Proof.
  apply (proj2 (proj2
           (malformed_body_raises "cookies/"
              (world_of 200 (JObj [("status", JStr "ok")]) jar_xyz) "alice"
              "secret" (empty_state true)
              (mkResponse 200 (Some (JObj [])) jar_abc)
              (mkResponse 200 (Some (JObj [("status", JStr "ok")])) jar_xyz)
              "abc" eq_refl eq_refl eq_refl)) [("status", JStr "ok")]);
    [reflexivity|discriminate|reflexivity].
Defined.

(** ** The state after the round trip *)

(** When the round trip returns normally, the anonymous GET gave a jar with
    a JSESSIONID value, the service answered the login posted with that jar
    by status 200 and a body passing the challenge check, the session's jar
    is the jar of that response, the [csrf-token] header is its JSESSIONID
    value stripped of its quotes, and the identity's cache file holds the
    session's jar. *)
Theorem round_trip_success (P : string) (w : World)
    (username password : string) (st st' : State) :
  _do_authentication_request P w username password st = (Ok tt, st') ->
  exists (r0 res : Response) (sid v : string) (data : json),
    requests_get w = Ok r0 /\
    jar_getitem (cookies r0) "JSESSIONID" = Ok sid /\
    requests_post w (mkPayload username password sid) (cookies r0) = Ok res /\
    status_code res = 200%Z /\
    body res = Some data /\ passes_challenge data /\
    session_cookies st' = cookies res /\
    jar_getitem (cookies res) "JSESSIONID" = Ok v /\
    session_headers st' !! "csrf-token" = Some (strip dquote v) /\
    files st' !! _get_cookiejar_file P username = Some (cookies res).
Proof.
  intros Hrun.
  pose proof (do_auth_round_trip P w username password st) as Hrt.
  rewrite Hrun in Hrt. simpl in Hrt.
  inversion Hrt as [| | | | |r0 res sid v data Hget Hsid Hpost H200 Hbody Hpass Hv Hr Hst].
  exists r0, res, sid, v, data. simpl. repeat split; try assumption.
  - apply lookup_insert_eq.
  - apply lookup_insert_eq.
Qed.

Lemma round_trip_success_witness :
  exists (r0 res : Response) (sid v : string) (data : json),
    requests_get world_pass = Ok r0 /\
    jar_getitem (cookies r0) "JSESSIONID" = Ok sid /\
    requests_post world_pass (mkPayload "alice" "secret" sid) (cookies r0)
    = Ok res /\
    status_code res = 200%Z /\
    body res = Some data /\ passes_challenge data /\
    jar_xyz = cookies res /\
    jar_getitem (cookies res) "JSESSIONID" = Ok v /\
    session_headers
      (snd (_do_authentication_request "cookies/" world_pass "alice" "secret"
              (empty_state true))) !! "csrf-token" = Some (strip dquote v) /\
    files
      (snd (_do_authentication_request "cookies/" world_pass "alice" "secret"
              (empty_state true))) !! "cookies/alice.jr" = Some (cookies res).
Proof.
  exact (round_trip_success "cookies/" world_pass "alice" "secret"
           (empty_state true) _ eq_refl).
Defined.

(** A response read as a success whose jar yields no JSESSIONID value makes
    the call raise after the session's jar was replaced: the session then
    holds the response jar, while the [csrf-token] header and the cache file
    still come from the anonymous jar. *)
Theorem accepted_response_without_session_id (P : string) (w : World)
    (username password : string) (st : State) (r0 res : Response)
    (sid : string) (data : json) (e : exn) :
  requests_get w = Ok r0 ->
  jar_getitem (cookies r0) "JSESSIONID" = Ok sid ->
  requests_post w (mkPayload username password sid) (cookies r0) = Ok res ->
  status_code res = 200%Z ->
  body res = Some data -> passes_challenge data ->
  jar_getitem (cookies res) "JSESSIONID" = Raise e ->
  exists st',
    _do_authentication_request P w username password st = (Raise e, st') /\
    session_cookies st' = cookies res /\
    session_headers st' !! "csrf-token" = Some (strip dquote sid) /\
    files st' !! _get_cookiejar_file P username = Some (cookies r0).
Proof.
  intros Hget Hsid Hpost H200 Hbody Hpass Hv.
  eexists. split.
  - rewrite (do_auth_posted _ _ _ _ _ _ _ Hget Hsid), Hpost.
    rewrite (interpret_passed _ _ _ _ _ Hbody Hpass), H200. simpl.
    apply (set_session_cookies_raise _ _ _ _ _ Hv).
  - simpl. repeat split; apply lookup_insert_eq.
Qed.

Lemma accepted_response_without_session_id_witness :
  exists st',
    _do_authentication_request "cookies/" (world_of 200 (JObj []) [])
      "alice" "secret" (empty_state true) = (Raise KeyError, st') /\
    session_cookies st' = [] /\
    session_headers st' !! "csrf-token" = Some (strip dquote "abc") /\
    files st' !! "cookies/alice.jr" = Some jar_abc.
Proof.
  apply (accepted_response_without_session_id "cookies/"
           (world_of 200 (JObj []) []) "alice" "secret" (empty_state true)
           (mkResponse 200 (Some (JObj [])) jar_abc)
           (mkResponse 200 (Some (JObj [])) []) "abc" (JObj []) KeyError);
    try reflexivity.
  now left.
Defined.

(** ** Calling [authenticate] again *)

Lemma reuse_of_cached_jar (P : string) (w : World) (username : string)
    (st : State) (jar : CookieJar) :
  _use_cookie_cache st = true ->
  files st !! _get_cookiejar_file P username = Some jar ->
  _is_token_still_valid (time_time w) jar = true ->
  reuses_cache P w username st = true.
Proof.
  intros Huse Hfile Hvalid. unfold reuses_cache.
  rewrite Huse, Hfile, Hvalid. now destruct jar.
Qed.

(** After a round trip that returned normally, with cache reuse on and the
    session's token still valid at the time of the next call, that call
    returns at once and changes nothing, whatever the password it is given
    and whatever the network would answer. *)
Theorem second_call_reuses_cache (P : string) (w w2 : World)
    (username password password2 : string) (st st' : State) :
  _do_authentication_request P w username password st = (Ok tt, st') ->
  _use_cookie_cache st = true ->
  _is_token_still_valid (time_time w2) (session_cookies st') = true ->
  authenticate P w2 username password2 st' = (Ok tt, st').
Proof.
  intros Hrun Huse Hvalid. apply authenticate_reuse.
  pose proof (do_auth_round_trip P w username password st) as Hrt.
  rewrite Hrun in Hrt. simpl in Hrt.
  inversion Hrt as [| | | | |r0 res sid v data Hget Hsid Hpost H200 Hbody Hpass Hv Hr Hst].
  subst st'. apply reuse_of_cached_jar with (cookies res).
  - exact Huse.
  - simpl. apply lookup_insert_eq.
  - exact Hvalid.
Qed.

Lemma second_call_reuses_cache_witness :
  authenticate "cookies/" (world_of 401 (JObj []) []) "alice" "wrong"
    (snd (_do_authentication_request "cookies/" world_pass "alice" "secret"
            (empty_state true)))
  = (Ok tt,
     snd (_do_authentication_request "cookies/" world_pass "alice" "secret"
            (empty_state true))).
Proof.
  apply (second_call_reuses_cache "cookies/" world_pass
           (world_of 401 (JObj []) []) "alice" "secret" "wrong"
           (empty_state true)); reflexivity.
Defined.



(** ** A newly built client *)

Lemma csrf_token_not_preset (default_headers : gmap string string) :
  headers_update REQUEST_HEADERS default_headers !! "csrf-token"
  = default_headers !! "csrf-token".
Proof.
  unfold headers_update, REQUEST_HEADERS. simpl.
  now rewrite !lookup_insert_ne by discriminate.
Qed.

(** A client built with [refresh_cookies=True] never trusts the cache: its
    [authenticate] starts with the anonymous GET whatever the disk holds. *)
Theorem refresh_forces_round_trip (P : string) (w : World)
    (username password : string) (default_headers : gmap string string)
    (disk : gmap string CookieJar) :
  authenticate P w username password (__init__ true default_headers disk)
  = _do_authentication_request P w username password
      (__init__ true default_headers disk) /\
  exists tail,
    log (snd (authenticate P w username password
                (__init__ true default_headers disk)))
    = EvGet AUTH_URL :: tail.
Proof.
  assert (Hfull : authenticate P w username password
                    (__init__ true default_headers disk)
                  = _do_authentication_request P w username password
                      (__init__ true default_headers disk))
    by reflexivity.
  split; [exact Hfull|]. rewrite Hfull.
  pose proof (do_auth_round_trip P w username password
                (__init__ true default_headers disk)) as Hrt.
  inversion Hrt; simpl; eauto.
Qed.

(** A client built with the default settings that finds a valid cached jar
    returns from [authenticate] without installing it: its [cookies] are
    still empty and its [csrf-token] header is whatever a new session has. *)
Theorem cache_hit_installs_nothing (P : string) (w : World)
    (username password : string) (default_headers : gmap string string)
    (disk : gmap string CookieJar) (jar : CookieJar) :
  disk !! _get_cookiejar_file P username = Some jar ->
  _is_token_still_valid (time_time w) jar = true ->
  exists st',
    authenticate P w username password (__init__ false default_headers disk)
    = (Ok tt, st') /\
    fst (Client_cookies st') = Ok [] /\
    session_headers st' !! "csrf-token" = default_headers !! "csrf-token" /\
    log st' = [].
Proof.
  intros Hfile Hvalid. exists (__init__ false default_headers disk). split.
  - apply authenticate_reuse.
    now apply reuse_of_cached_jar with jar.
  - repeat split. apply csrf_token_not_preset.
Qed.

Lemma cache_hit_installs_nothing_witness :
  exists st',
    authenticate "cookies/" world_pass "alice" "secret"
      (__init__ false ∅ {[ "cookies/alice.jr" := jar_xyz ]})
    = (Ok tt, st') /\
    fst (Client_cookies st') = Ok [] /\
    session_headers st' !! "csrf-token" = (∅ : gmap string string) !! "csrf-token" /\
    log st' = [].
Proof.
  apply (cache_hit_installs_nothing "cookies/" world_pass "alice" "secret" ∅
           {[ "cookies/alice.jr" := jar_xyz ]} jar_xyz).
  - apply lookup_singleton_eq.
  - reflexivity.
Defined.

(** ** When [authenticate] returns normally *)

(** A normal return of [authenticate] has one of two causes: cache reuse is
    on and the identity's file holds a jar the validator accepts, in which
    case nothing changed; or the service answered the login with status 200
    and a body passing the challenge check, and the response jar, which has a
    JSESSIONID value, is now the session's jar. *)
Theorem authenticate_ok_sound (P : string) (w : World)
    (username password : string) (st st' : State) :
  authenticate P w username password st = (Ok tt, st') ->
  (st' = st /\ _use_cookie_cache st = true /\
   exists jar, files st !! _get_cookiejar_file P username = Some jar /\
               _is_token_still_valid (time_time w) jar = true) \/
  (exists (r0 res : Response) (sid v : string) (data : json),
     requests_get w = Ok r0 /\
     jar_getitem (cookies r0) "JSESSIONID" = Ok sid /\
     requests_post w (mkPayload username password sid) (cookies r0) = Ok res /\
     status_code res = 200%Z /\
     body res = Some data /\ passes_challenge data /\
     jar_getitem (cookies res) "JSESSIONID" = Ok v /\
     session_cookies st' = cookies res).
Proof.
  intros Hrun. destruct (reuses_cache P w username st) eqn:Hreuse.
  - left. rewrite (authenticate_reuse _ _ _ _ _ Hreuse) in Hrun.
    injection Hrun as <-. unfold reuses_cache in Hreuse.
    apply andb_true_iff in Hreuse as [Huse Hjar].
    destruct (files st !! _get_cookiejar_file P username) as [jar|];
      [|discriminate].
    apply andb_true_iff in Hjar as [_ Hvalid]. eauto.
  - right. rewrite (authenticate_full _ _ _ _ _ Hreuse) in Hrun.
    pose proof (do_auth_round_trip P w username password st) as Hrt.
    rewrite Hrun in Hrt. simpl in Hrt.
    inversion Hrt as [| | | | |r0 res sid v data Hget Hsid Hpost H200 Hbody Hpass Hv Hr Hst].
    exists r0, res, sid, v, data. now repeat split.
Qed.

Lemma authenticate_ok_sound_witness :
  exists (r0 res : Response) (sid v : string) (data : json),
    requests_get world_pass = Ok r0 /\
    jar_getitem (cookies r0) "JSESSIONID" = Ok sid /\
    requests_post world_pass (mkPayload "alice" "secret" sid) (cookies r0)
    = Ok res /\
    status_code res = 200%Z /\
    body res = Some data /\ passes_challenge data /\
    jar_getitem (cookies res) "JSESSIONID" = Ok v.
Proof.
  destruct (authenticate_ok_sound "cookies/" world_pass "alice" "secret"
              (empty_state true) _ eq_refl)
    as [(_ & _ & jar & Hfile & _)
       |(r0 & res & sid & v & data & H1 & H2 & H3 & H4 & H5 & H6 & H7 & _)].
  - discriminate Hfile.
  - exists r0, res, sid, v, data. now repeat split.
Defined.

(** A cached jar the validator rejects is not reused: [authenticate] runs the
    round trip, and when the login is accepted the identity's file holds
    the response jar in place of the stale one, ready for the next load. *)
Theorem stale_cache_is_replaced (P : string) (w : World)
    (username password : string) (st : State) (stale : CookieJar)
    (r0 res : Response) (sid v : string) (data : json) :
  files st !! _get_cookiejar_file P username = Some stale ->
  _is_token_still_valid (time_time w) stale = false ->
  requests_get w = Ok r0 ->
  jar_getitem (cookies r0) "JSESSIONID" = Ok sid ->
  requests_post w (mkPayload username password sid) (cookies r0) = Ok res ->
  status_code res = 200%Z ->
  body res = Some data -> passes_challenge data ->
  jar_getitem (cookies res) "JSESSIONID" = Ok v ->
  exists st',
    authenticate P w username password st = (Ok tt, st') /\
    fst (_load_cookies_from_cache P username st') = Ok (true, Some (cookies res)).
Proof.
  intros Hfile Hstale Hget Hsid Hpost H200 Hbody Hpass Hv.
  eexists. split.
  - rewrite authenticate_full.
    + rewrite (do_auth_posted _ _ _ _ _ _ _ Hget Hsid), Hpost.
      rewrite (interpret_passed _ _ _ _ _ Hbody Hpass), H200. simpl.
      apply (set_session_cookies_ok _ _ _ _ _ Hv).
    + unfold reuses_cache. rewrite Hfile, Hstale.
      now rewrite andb_false_r, andb_false_r.
  - unfold _load_cookies_from_cache, bind, gets, ret. simpl.
    rewrite lookup_insert_eq. now rewrite (jar_getitem_nonempty _ _ _ Hv).
Qed.

Lemma stale_cache_is_replaced_witness :
  exists st',
    authenticate "cookies/" world_pass "alice" "secret"
      (state_with_cache "cookies/alice.jr" jar_blank_stale) = (Ok tt, st') /\
    fst (_load_cookies_from_cache "cookies/" "alice" st')
    = Ok (true, Some jar_xyz).
Proof.
  apply (stale_cache_is_replaced "cookies/" world_pass "alice" "secret"
           (state_with_cache "cookies/alice.jr" jar_blank_stale)
           jar_blank_stale (mkResponse 200 (Some (JObj [])) jar_abc)
           (mkResponse 200 (Some (login_body "PASS")) jar_xyz) "abc" "xyz"
           (login_body "PASS")); try reflexivity.
  now right.
Defined.
